(** * LAVA dispatcher: boot actions and the device-control abstraction

    A shallow embedding of
      - [lava_dispatcher/device/target.py]   (class [Target], class [SerialIO])
      - [lava_dispatcher/actions/boot_control.py] (the three boot actions and
        the module-level schema dictionary)
    together with the properties the specification states about them.

    Python statements are embedded in a state-and-exception monad: a
    computation takes the current store and gives back an outcome (a value
    or a raised exception) and the store it leaves behind.  A raise keeps
    every mutation performed before it, as in Python. *)

From Stdlib Require Import ZArith Lia.
From stdpp Require Import base option list strings gmap.

Set Warnings "-register-all".

(* ===================================================================== *)
(** ** Python outcomes, exceptions and control operators                  *)
(* ===================================================================== *)

Module Py.

(** Exception classes that occur in the two modules.  [errors.py] is not
    part of the sources: [ADBConnectError] and [CriticalError] are the two
    classes [boot_control.py] imports from it.  [OtherException] stands for
    any further class below [Exception] (pexpect's TIMEOUT, IOError, ...),
    [NonException] for the classes that derive from [BaseException] only
    (KeyboardInterrupt, SystemExit). *)
Inductive exn_class : Type :=
| ADBConnectError
| CriticalError
| NotImplementedError
| ValueError
| AttributeError
| OtherException (name : string)
| NonException (name : string).

(** An exception object: its class and [str(e)]. *)
Record exn : Type := Exn { exn_cls : exn_class; exn_msg : string }.

(** [isinstance(e, ADBConnectError)] *)
Definition is_ADBConnectError (e : exn) : bool :=
  match exn_cls e with ADBConnectError => true | _ => false end.

(** [isinstance(e, Exception)] *)
Definition is_Exception (e : exn) : bool :=
  match exn_cls e with NonException _ => false | _ => true end.

Inductive result (A : Type) : Type :=
| Return (a : A)
| Raise (e : exn).
Arguments Return {A} a.
Arguments Raise {A} e.

Definition M (S A : Type) : Type := S -> result A * S.

Definition ret {S A} (a : A) : M S A := fun s => (Return a, s).

Definition raise {S A} (e : exn) : M S A := fun s => (Raise e, s).

Definition bind {S A B} (m : M S A) (k : A -> M S B) : M S B :=
  fun s =>
    match m s with
    | (Return a, s1) => k a s1
    | (Raise e, s1) => (Raise e, s1)
    end.

(** [try: body / except: handler] where the handler receives the exception
    and decides itself whether the clause applies. *)
Definition try_except {S A} (body : M S A) (handler : exn -> M S A) : M S A :=
  fun s =>
    match body s with
    | (Return a, s1) => (Return a, s1)
    | (Raise e, s1) => handler e s1
    end.

(** [try: body / finally: fin].  The finaliser runs on both exits; an
    exception raised by the finaliser replaces the pending outcome. *)
Definition try_finally {S A} (body : M S A) (fin : M S unit) : M S A :=
  fun s =>
    match body s with
    | (r, s1) =>
        match fin s1 with
        | (Return _, s2) => (r, s2)
        | (Raise e, s2) => (Raise e, s2)
        end
    end.

(** Read and write the store. *)
Definition get {S} : M S S := fun s => (Return s, s).
Definition modify {S} (f : S -> S) : M S unit := fun s => (Return tt, f s).

(** Run a computation over a component [T] of the store [S]. *)
Definition zoom {S T A} (proj : S -> T) (upd : T -> S -> S) (m : M T A) : M S A :=
  fun s => match m (proj s) with (r, t) => (r, upd t s) end.

(** [try: m / except: pass] *)
Definition attempt {S A} (m : M S A) : M S unit :=
  fun s => (Return tt, (m s).2).

(** [needle in hay] on strings. *)
Fixpoint contains (needle hay : string) : bool :=
  String.prefix needle hay ||
  match hay with
  | EmptyString => false
  | String _ hay' => contains needle hay'
  end.

End Py.

Import Py.

Declare Scope py_scope.
Delimit Scope py_scope with py.
Notation "'let*' x ':=' c 'in' k" := (bind c (fun x => k))
  (at level 10, x name, c at level 100, k at level 200) : py_scope.
Notation "c1 '>>' c2" := (bind c1 (fun _ => c2))
  (at level 90, right associativity) : py_scope.
Local Open Scope py_scope.

(* ===================================================================== *)
(** ** [class SerialIO(file)]                                             *)
(* ===================================================================== *)

Module SerialIO.

(** The error both [cStringIO] and [file] raise once closed. *)
Definition closed_file : exn :=
  Exn ValueError "I/O operation on closed file".

(** [cStringIO.StringIO()]: an output buffer that only ever grows at its
    end, and a closed flag. *)
Record StringIO : Type := MkStringIO {
  sio_value : string;
  sio_closed : bool
}.

Definition StringIO_new : StringIO := MkStringIO "" false.

Definition StringIO_write (text : string) : M StringIO unit :=
  fun b =>
    if sio_closed b then (Raise closed_file, b)
    else (Return tt, MkStringIO (sio_value b +:+ text) false).

Definition StringIO_getvalue : M StringIO string :=
  fun b =>
    if sio_closed b then (Raise closed_file, b)
    else (Return (sio_value b), b).

Definition StringIO_close : M StringIO unit :=
  fun b => (Return tt, MkStringIO (sio_value b) true).

(** The persistent log stream, a Python [file]: bytes already handed to
    the backing store, bytes still pending in the stream's own buffer, and
    a closed flag. *)
Record File : Type := MkFile {
  f_stored : string;
  f_pending : string;
  f_closed : bool
}.

Definition File_write (text : string) : M File unit :=
  fun f =>
    if f_closed f then (Raise closed_file, f)
    else (Return tt, MkFile (f_stored f) (f_pending f +:+ text) false).

Definition File_flush : M File unit :=
  fun f =>
    if f_closed f then (Raise closed_file, f)
    else (Return tt, MkFile (f_stored f +:+ f_pending f) "" false).

Definition File_close : M File unit :=
  fun f =>
    if f_closed f then (Return tt, f)
    else (Return tt, MkFile (f_stored f +:+ f_pending f) "" true).

(** Everything written to the stream so far, flushed or not. *)
Definition File_contents (f : File) : string := f_stored f +:+ f_pending f.

(** The object: [self.serialio] and [self.logfile]. *)
Record SerialIO : Type := MkSerialIO {
  serialio : StringIO;
  logfile : File
}.

Definition on_serialio {A} (m : M StringIO A) : M SerialIO A :=
  zoom serialio (fun b s => MkSerialIO b (logfile s)) m.

Definition on_logfile {A} (m : M File A) : M SerialIO A :=
  zoom logfile (fun f s => MkSerialIO (serialio s) f) m.

(** [__init__(self, logfile)] *)
Definition __init__ (lf : File) : SerialIO := MkSerialIO StringIO_new lf.

(** [write(self, text)] *)
Definition write (text : string) : M SerialIO unit :=
  on_serialio (StringIO_write text) >>
  on_logfile (File_write text).

(** [close(self)] *)
Definition close : M SerialIO unit :=
  on_serialio StringIO_close >>
  on_logfile File_close.

(** [flush(self)] *)
Definition flush : M SerialIO unit :=
  on_logfile File_flush.

(** [getvalue(self)] *)
Definition getvalue : M SerialIO string :=
  on_serialio StringIO_getvalue.

(** Caller scripts: a straight-line sequence of method calls, which stops
    at the first call that raises. *)
Inductive call : Type :=
| Write (text : string)
| Flush.

Definition do_call (c : call) : M SerialIO unit :=
  match c with
  | Write text => write text
  | Flush => flush
  end.

Fixpoint script (cs : list call) : M SerialIO unit :=
  match cs with
  | [] => ret tt
  | c :: cs' => do_call c >> script cs'
  end.

(** The same sequence of calls by a caller that catches what each call
    raises and goes on. *)
Fixpoint script_guarded (cs : list call) : M SerialIO unit :=
  match cs with
  | [] => ret tt
  | c :: cs' => attempt (do_call c) >> script_guarded cs'
  end.

Definition is_Write (c : call) : bool :=
  match c with Write _ => true | Flush => false end.

(** The data of the write calls of a script, in call order. *)
Fixpoint writes_of (cs : list call) : list string :=
  match cs with
  | [] => []
  | Write text :: cs' => text :: writes_of cs'
  | Flush :: cs' => writes_of cs'
  end.

(** Concatenation of a list of texts. *)
Fixpoint join (ws : list string) : string :=
  match ws with
  | [] => ""
  | w :: ws' => w +:+ join ws'
  end.

End SerialIO.

(* ===================================================================== *)
(** ** Device configuration                                               *)
(* ===================================================================== *)

(** The attributes of the device configuration object that the two modules
    read or assign. *)
Record DeviceConfig : Type := MkDeviceConfig {
  tester_str : string;
  boot_cmds : list string;
  android_wait_for_home_screen : bool
}.

(* ===================================================================== *)
(** ** [class Target(object)]                                             *)
(* ===================================================================== *)

Module Target.

(** A pexpect session, as returned by [power_on]. *)
Record Proc : Type := MkProc { proc_id : nat }.

(** [CommandRunner(connection, prompt_str)] of [client/base.py]: the
    constructor only stores its two arguments. *)
Record CommandRunner : Type := MkCommandRunner {
  cr_connection : Proc;
  cr_prompt_str : string
}.

(** The instance attributes [__init__] creates, the configuration apart:
    that object is shared with the client and lives in the job store. *)
Record Target : Type := MkTarget {
  deployment_data : gmap string string;
  sio : SerialIO.SerialIO;
  boot_options : list string;
  scratch_dir : string
}.

(** [__init__]: [stdout] is [sys.stdout], [tmpdir] the directory
    [utils.mkdtemp] created. *)
Definition __init__ (stdout : SerialIO.File) (tmpdir : string) : Target :=
  MkTarget ∅ (SerialIO.__init__ stdout) [] tmpdir.

Definition get_test_data_attachments (self : Target) : list string := [].

Section Methods.

(** The state of the device and of the host side driving it. *)
Context {D : Type}.

(** A device variant is a subclass of [Target]: for each capability
    either its own method or nothing, in which case the method of the
    base class is inherited. *)
Record Variant : Type := MkVariant {
  v_power_on : option (M D Proc);
  v_power_off : option (Proc -> M D unit);
  v_deploy_linaro : option (string -> string -> M D unit);
  v_deploy_android : option (string -> string -> string -> M D unit);
  v_deploy_linaro_prebuilt : option (string -> M D unit);
  v_file_system : option (string -> string -> M D string)
}.

(** The methods of the base class. *)
Definition Target_power_on : M D Proc :=
  raise (Exn NotImplementedError "power_on").

Definition Target_power_off (proc : Proc) : M D unit :=
  raise (Exn NotImplementedError "power_off").

Definition Target_deploy_linaro (hwpack rfs : string) : M D unit :=
  raise (Exn NotImplementedError "deploy_image").

Definition Target_deploy_android (boot system userdata : string) : M D unit :=
  raise (Exn NotImplementedError "deploy_android_image").

Definition Target_deploy_linaro_prebuilt (image : string) : M D unit :=
  raise (Exn NotImplementedError "deploy_linaro_prebuilt").

(** The body has no [yield], so the decorated function raises when it
    is called, before any directory is handed to a [with] block. *)
Definition Target_file_system (partition directory : string) : M D string :=
  raise (Exn NotImplementedError "file_system").

(** Method lookup on an instance of the variant. *)
Definition power_on (self : Variant) : M D Proc :=
  default Target_power_on (v_power_on self).

Definition power_off (self : Variant) : Proc -> M D unit :=
  default Target_power_off (v_power_off self).

Definition deploy_linaro (self : Variant) : string -> string -> M D unit :=
  default Target_deploy_linaro (v_deploy_linaro self).

Definition deploy_android (self : Variant)
  : string -> string -> string -> M D unit :=
  default Target_deploy_android (v_deploy_android self).

Definition deploy_linaro_prebuilt (self : Variant) : string -> M D unit :=
  default Target_deploy_linaro_prebuilt (v_deploy_linaro_prebuilt self).

Definition file_system (self : Variant) : string -> string -> M D string :=
  default Target_file_system (v_file_system self).

(** The class [Target] itself: nothing overridden. *)
Definition base : Variant := MkVariant None None None None None None.

(** *** [runner] *)

(** What [runner] itself calls, in call order.  The record is kept
    apart from the device state, which the called methods own. *)
Inductive event : Type :=
| EvPowerOn
| EvLogInfo (msg : string)
| EvRun (r : CommandRunner) (cmd : string) (timeout : Z)
| EvPowerOff (proc : Proc).

Record World : Type := MkWorld {
  trace : list event;
  dev : D
}.

(** [logging.info('attempting a filesystem sync before power_off')] *)
Definition sync_log : event :=
  EvLogInfo "attempting a filesystem sync before power_off".

Definition emit (ev : event) : M World unit :=
  modify (fun w => MkWorld (trace w ++ [ev]) (dev w)).

Definition on_dev {A} (m : M D A) : M World A :=
  zoom dev (fun d w => MkWorld (trace w) d) m.

Variable self : Variant.
Variable config : DeviceConfig.

(** [CommandRunner.run(cmd, timeout=...)] of [client/base.py], which is
    not among the sources: it sends the command and waits for the
    prompt, and raises when the wait times out. *)
Variable CommandRunner_run : CommandRunner -> string -> Z -> M D Z.

Definition call_power_on : M World Proc :=
  emit EvPowerOn >> on_dev (power_on self).

Definition call_power_off (proc : Proc) : M World unit :=
  emit (EvPowerOff proc) >> on_dev (power_off self proc).

Definition call_run (r : option CommandRunner) (cmd : string) (timeout : Z)
  : M World Z :=
  match r with
  | Some r => emit (EvRun r cmd timeout) >> on_dev (CommandRunner_run r cmd timeout)
  | None => raise (Exn AttributeError "'NoneType' object has no attribute 'run'")
  end.

(** The [finally:] block, given the values of the two local variables
    [proc] and [runner].  A session object is true; [None] is not. *)
Definition runner_finally (proc : option Proc) (runner : option CommandRunner)
  : M World unit :=
  match proc with
  | Some p =>
      emit sync_log >>
      call_run runner "sync" 5 >>
      call_power_off p
  | None => ret tt
  end.

(** [with self.runner() as r: body(r)].  The generator runs up to its
    [yield], the block runs with the yielded runner, and the generator
    is resumed (or the block's exception thrown into it), which runs
    the [finally:] block.  When [power_on] raises, the block never
    runs and the [finally:] block sees [proc = runner = None]. *)
Definition runner {A} (body : CommandRunner -> M D A) : M World A :=
  fun w =>
    match call_power_on w with
    | (Raise e, w1) =>
        try_finally (raise e) (runner_finally None None) w1
    | (Return proc, w1) =>
        let r := MkCommandRunner proc (tester_str config) in
        try_finally (on_dev (body r))
                    (runner_finally (Some proc) (Some r)) w1
    end.

Definition is_power_off (ev : event) : bool :=
  match ev with EvPowerOff _ => true | _ => false end.

Definition is_sync (ev : event) : bool :=
  match ev with
  | EvRun _ cmd timeout => (String.eqb cmd "sync" && (timeout =? 5)%Z)%bool
  | _ => false
  end.

Definition count (p : event -> bool) (tr : list event) : nat :=
  length (List.filter p tr).

End Methods.

Arguments Variant : clear implicits.
Arguments World : clear implicits.

End Target.

(* ===================================================================== *)
(** ** Parameter schemas: the dictionaries of [boot_control.py]           *)
(* ===================================================================== *)

Module Schema.

(** JSON values, as bound to the parameters of an action. *)
Inductive json : Type :=
| JNull
| JBool (b : bool)
| JNum (n : Z)
| JStr (s : string)
| JArr (items : list json).

(** One entry of ['properties']: the keys the module uses. *)
Record property : Type := MkProperty {
  p_type : option string;
  p_items : option string;
  p_optional : bool;
  p_default : option json
}.

(** A schema dictionary, with its nested ['properties'] dictionary. *)
Record schema : Type := MkSchema {
  s_type : string;
  properties : gmap string property;
  additionalProperties : bool
}.

(** Dictionaries are objects: a name holds a reference, and an item
    assignment through any reference changes the one object. *)
Definition ref : Type := positive.

Record heap : Type := MkHeap {
  objects : gmap ref schema;
  next : ref
}.

Definition empty_heap : heap := MkHeap ∅ 1%positive.

(** A dictionary display: a new object every time it is evaluated. *)
Definition alloc (d : schema) (h : heap) : ref * heap :=
  (next h, MkHeap (<[next h := d]> (objects h)) (Pos.succ (next h))).

(** [r['properties'][key] = p] *)
Definition set_property (r : ref) (key : string) (p : property) (h : heap) : heap :=
  MkHeap
    (alter (fun d => MkSchema (s_type d) (<[key := p]> (properties d))
                              (additionalProperties d))
           r (objects h))
    (next h).

(** The module after the three statements that concern the two image
    boot actions: the global name and the class attribute of each. *)
Record module_state : Type := MkModule {
  mod_heap : heap;
  _boot_schema : ref;
  cmd_boot_linaro_android_image_parameters_schema : ref;
  cmd_boot_linaro_image_parameters_schema : ref
}.

Definition boot_schema_literal : schema :=
  MkSchema "object"
    {[ "options" := MkProperty (Some "array") (Some "string") true None ]}
    false.

Definition flag_literal : property :=
  MkProperty None None true (Some (JBool false)).

(** Executing the module top to bottom. *)
Definition import_boot_control : module_state :=
  (* _boot_schema = {...} *)
  let '(boot, h0) := alloc boot_schema_literal empty_heap in
  (* class cmd_boot_linaro_android_image: parameters_schema = _boot_schema *)
  let android := boot in
  let h1 := set_property android "adb_check" flag_literal h0 in
  let h2 := set_property android "wait_for_home_screen" flag_literal h1 in
  (* class cmd_boot_linaro_image: parameters_schema = _boot_schema *)
  let linaro := boot in
  let h3 := set_property linaro "interactive_boot_cmds" flag_literal h2 in
  MkModule h3 boot android linaro.

(** The dictionary a class attribute refers to once the module is
    loaded. *)
Definition deref (m : module_state) (r : ref) : option schema :=
  objects (mod_heap m) !! r.

(** Modelled from the spec: the validation [BaseAction] performs on the
    bound parameters (lava_dispatcher/actions/__init__.py and the schema
    validator it calls are not among the sources).  A parameter map is
    rejected when it holds a field the schema does not declare while
    [additionalProperties] is false, when a declared field that is not
    optional is missing, or when a value does not have the declared type
    or element type. *)
Definition has_type (ty : option string) (v : json) : bool :=
  match ty, v with
  | None, _ => true
  | Some "array", JArr _ => true
  | Some "string", JStr _ => true
  | Some "boolean", JBool _ => true
  | Some "integer", JNum _ => true
  | Some _, _ => false
  end.

(** Modelled from the spec: a value has the declared type, and an array
    the declared element type. *)
Definition value_ok (p : property) (v : json) : bool :=
  has_type (p_type p) v &&
  match v with
  | JArr items => forallb (has_type (p_items p)) items
  | _ => true
  end.

(** Modelled from the spec: a bound field is declared and well typed, or
    undeclared fields are allowed. *)
Definition field_ok (d : schema) (field : string * json) : bool :=
  match properties d !! field.1 with
  | Some p => value_ok p field.2
  | None => additionalProperties d
  end.

(** Modelled from the spec: a declared field is optional or bound. *)
Definition required_ok (params : gmap string json) (decl : string * property) : bool :=
  p_optional decl.2 || bool_decide (is_Some (params !! decl.1)).

(** Modelled from the spec: the three checks together. *)
Definition validate (d : schema) (params : gmap string json) : bool :=
  forallb (field_ok d) (map_to_list params) &&
  forallb (required_ok params) (map_to_list (properties d)).

(** Modelled from the spec: [cls.validate_parameters(params)] for a class
    whose [parameters_schema] attribute is [r]. *)
Definition validate_parameters (m : module_state) (r : ref)
           (params : gmap string json) : bool :=
  match deref m r with
  | Some d => validate d params
  | None => false
  end.

End Schema.

(* ===================================================================== *)
(** ** The boot actions of [boot_control.py]                              *)
(* ===================================================================== *)

Module BootControl.

(** One record of the logging module. *)
Inductive log_record : Type :=
| LogException (msg : string).

(** The store a boot action works on.  [client.config] and the [config]
    attribute of [client.target_device] are one object, the job's device
    configuration; [test_data] is [self.context.test_data]. *)
Record Job : Type := MkJob {
  device_config : DeviceConfig;
  target_device : Target.Target;
  test_data : list (string * string);
  logging : list log_record
}.

Definition client_config (j : Job) : DeviceConfig := device_config j.
Definition target_config (j : Job) : DeviceConfig := device_config j.

(** [client.target_device.boot_options = options] *)
Definition set_boot_options (options : list string) : M Job unit :=
  modify (fun j =>
    let t := target_device j in
    MkJob (device_config j)
          (Target.MkTarget (Target.deployment_data t) (Target.sio t) options
                           (Target.scratch_dir t))
          (test_data j) (logging j)).

(** [client.config.boot_cmds = options] *)
Definition set_boot_cmds (options : list string) : M Job unit :=
  modify (fun j =>
    let c := device_config j in
    MkJob (MkDeviceConfig (tester_str c) options (android_wait_for_home_screen c))
          (target_device j) (test_data j) (logging j)).

(** [client.config.android_wait_for_home_screen = flag] *)
Definition set_android_wait_for_home_screen (flag : bool) : M Job unit :=
  modify (fun j =>
    let c := device_config j in
    MkJob (MkDeviceConfig (tester_str c) (boot_cmds c) flag)
          (target_device j) (test_data j) (logging j)).

(** [logging.exception(msg)] *)
Definition logging_exception (msg : string) : M Job unit :=
  modify (fun j =>
    MkJob (device_config j) (target_device j) (test_data j)
          (logging j ++ [LogException msg])).

(** Modelled from the spec: [TestData.add_result] (the job context is not
    among the sources).  TestData is an append-only accumulator of
    (name, outcome) pairs. *)
Definition add_result (name outcome : string) : M Job unit :=
  modify (fun j =>
    MkJob (device_config j) (target_device j)
          (test_data j ++ [(name, outcome)]) (logging j)).

Definition failed_to_boot : exn := Exn CriticalError "Failed to boot test image.".

Section Actions.

(** The client's boot calls ([client/base.py], not among the sources):
    any computation on the job store. *)
Variable boot_linaro_android_image : bool -> M Job unit.
Variable boot_linaro_image : M Job unit.
Variable boot_master_image : M Job unit.

(** *** [cmd_boot_linaro_android_image.run] *)

(** The statements before the [try:]. An omitted keyword argument is
    [None] here and takes the default of the signature. *)
Definition android_prepare (options : option (list string))
           (wait_for_home_screen : option bool) : M Job unit :=
  let wait_for_home_screen := default true wait_for_home_screen in
  let options :=
    match options with
    | None | Some [] => []
    | Some (o :: os) => o :: os
    end in
  set_boot_options options >>
  set_android_wait_for_home_screen wait_for_home_screen.

(** The two [except] clauses, tried in order. *)
Definition android_handler (e : exn) : M Job unit :=
  if is_ADBConnectError e then
    logging_exception
      ("boot_linaro_android_image failed to create the adb connection: "
       +:+ exn_msg e) >>
    raise e
  else if is_Exception e then
    logging_exception ("boot_linaro_android_image failed: " +:+ exn_msg e) >>
    raise failed_to_boot
  else raise e.

Definition cmd_boot_linaro_android_image_run
           (options : option (list string)) (adb_check : option bool)
           (wait_for_home_screen : option bool) : M Job unit :=
  let adb_check := default false adb_check in
  android_prepare options wait_for_home_screen >>
  try_except (boot_linaro_android_image adb_check) android_handler.

(** *** [cmd_boot_linaro_image.run] *)

(** The frame of the call: the store and the local variable [status]. *)
Record frame : Type := MkFrame {
  job : Job;
  status : string
}.

Definition on_job {A} (m : M Job A) : M frame A :=
  zoom job (fun j f => MkFrame j (status f)) m.

Definition set_status (s : string) : M frame unit :=
  modify (fun f => MkFrame (job f) s).

Definition linaro_prepare (options : list string) (interactive_boot_cmds : bool)
  : M Job unit :=
  if interactive_boot_cmds then set_boot_cmds options
  else set_boot_options options.

Definition linaro_body (options : list string) (interactive_boot_cmds : bool)
  : M frame unit :=
  on_job (linaro_prepare options interactive_boot_cmds) >>
  set_status "pass" >>
  try_finally
    (try_except
       (on_job boot_linaro_image)
       (fun _ =>
          on_job (logging_exception "boot_linaro_image failed") >>
          set_status "fail" >>
          raise failed_to_boot))
    (let* f := get in on_job (add_result "boot_image" (status f))).

Definition cmd_boot_linaro_image_run
           (options : option (list string)) (interactive_boot_cmds : option bool)
  : M Job unit :=
  let options := default [] options in
  let interactive_boot_cmds := default false interactive_boot_cmds in
  fun j =>
    match linaro_body options interactive_boot_cmds (MkFrame j "") with
    | (r, f) => (r, job f)
    end.

(** *** [cmd_boot_master_image.run] *)
Definition cmd_boot_master_image_run : M Job unit := boot_master_image.

End Actions.

End BootControl.

(* ===================================================================== *)
(** ** [class LavaTable] of [lava/utils/lavatable.py]                     *)
(* ===================================================================== *)

Module LavaTable.

Section Prepare.

(** The objects held in the attributes of the view; the table only passes
    them on. *)
Context {V : Type}.

(** The value of [data.discrete]: a list, or an object of another type. *)
Inductive discrete_value : Type :=
| IsList (items : list V)
| NotList (v : V).

(** The view handed to the table as [data]: an attribute it does not have
    is [None] here. *)
Record view_data : Type := MkViewData {
  search : option V;
  terms : option V;
  times : option V;
  discrete : option discrete_value
}.

(** Truth value of [self.prefix]: [None] and the empty string are false. *)
Definition prefix_true (prefix : option string) : bool :=
  match prefix with
  | None | Some EmptyString => false
  | Some (String _ _) => true
  end.

(** [prepare_search_data(self, data)] *)
Definition prepare_search_data (prefix : option string) (data : view_data)
  : gmap string V :=
  match search data with
  | None => ∅
  | Some v =>
      if prefix_true prefix then {[ default "" prefix := v ]}
      else {[ "search" := v ]}
  end.

(** [prepare_terms_data(self, data)] *)
Definition prepare_terms_data (prefix : option string) (data : view_data)
  : gmap string V :=
  match terms data with
  | None => ∅
  | Some v =>
      if prefix_true prefix then {[ default "" prefix := v ]}
      else {[ "terms" := v ]}
  end.

(** [prepare_times_data(self, data)] *)
Definition prepare_times_data (prefix : option string) (data : view_data)
  : gmap string V :=
  match times data with
  | None => ∅
  | Some v =>
      if prefix_true prefix then {[ default "" prefix := v ]}
      else {[ "times" := v ]}
  end.

(** [prepare_discrete_data(self, data)] *)
Definition prepare_discrete_data (prefix : option string) (data : view_data)
  : gmap string (list V) :=
  match discrete data with
  | None | Some (NotList _) => ∅
  | Some (IsList items) =>
      if prefix_true prefix then
        if 1 <? length items then {[ default "" prefix := items ]} else ∅
      else
        if 1 <? length items then {[ "discrete" := items ]} else ∅
  end.

End Prepare.

Arguments discrete_value : clear implicits.
Arguments view_data : clear implicits.

End LavaTable.

(* ===================================================================== *)
(** ** [class BundleStreamAdminForm] of [dashboard_app/admin.py]          *)
(* ===================================================================== *)

Module DashboardAdmin.

(** The values of a cleaned form field: [None], a string, or a model
    instance (a user, a group). *)
Inductive pyvalue : Type :=
| PyNone
| PyStr (s : string)
| PyObj (pk : nat).

(** [d.get(key, dflt)] *)
Definition dict_get (d : gmap string pyvalue) (key : string) (dflt : pyvalue)
  : pyvalue :=
  default dflt (d !! key).

(** [v is not None] *)
Definition is_not_None (v : pyvalue) : bool :=
  match v with PyNone => false | _ => true end.

Definition both_set : exn :=
  Exn (OtherException "ValidationError")
      "BundleStream cannot have both user and name set at the same time".

Section Form.

(** The form object, its [cleaned_data] attribute, and [clean] of the
    parent class [forms.ModelForm]. *)
Context {F : Type}.
Variable cleaned_data_of : F -> gmap string pyvalue.
Variable super_clean : M F (gmap string pyvalue).

(** [BundleStreamAdminForm.clean(self)] *)
Definition clean : M F (gmap string pyvalue) :=
  fun self =>
    let cleaned_data := cleaned_data_of self in
    if is_not_None (dict_get cleaned_data "user" (PyStr ""))
       && is_not_None (dict_get cleaned_data "group" PyNone)
    then raise both_set self
    else super_clean self.

End Form.

End DashboardAdmin.

(* ===================================================================== *)
(** ** Concrete devices and jobs                                          *)
(* ===================================================================== *)

Module Scenario.

(** A board that is either powered or not. *)
Record board : Type := MkBoard { powered : bool }.

Definition session : Target.Proc := Target.MkProc 1.

(** A variant with its own power control and nothing else. *)
Definition relay_board : Target.Variant board :=
  Target.MkVariant
    (Some (fun _ => (Return session, MkBoard true)))
    (Some (fun _ _ => (Return tt, MkBoard false)))
    None None None None.

Definition config0 : DeviceConfig := MkDeviceConfig "root@linaro:" [] false.

(** The prompt comes back. *)
Definition run_answers (r : Target.CommandRunner) (cmd : string) (timeout : Z)
  : M board Z := ret 0%Z.

(** The prompt does not come back within the timeout. *)
Definition pexpect_TIMEOUT : exn := Exn (OtherException "TIMEOUT") "Timeout exceeded.".

Definition run_times_out (r : Target.CommandRunner) (cmd : string) (timeout : Z)
  : M board Z := raise pexpect_TIMEOUT.

Definition block_returns (r : Target.CommandRunner) : M board unit := ret tt.

Definition test_failed : exn := Exn (OtherException "OperationFailed") "test failed".

Definition block_raises (r : Target.CommandRunner) : M board unit := raise test_failed.

Definition world0 : Target.World board := Target.MkWorld [] (MkBoard false).

(** A job store before any action ran. *)
Definition job0 : BootControl.Job :=
  BootControl.MkJob config0
    (Target.__init__ (SerialIO.MkFile "" "" false) "/tmp/lava-0")
    [] [].

Definition boot_succeeds : M BootControl.Job unit := ret tt.

Definition kernel_panic : exn := Exn (OtherException "RuntimeError") "kernel panic".

Definition boot_panics : M BootControl.Job unit := raise kernel_panic.

Definition adb_refused : exn := Exn ADBConnectError "adb connect refused".

Definition android_boot_succeeds (adb_check : bool) : M BootControl.Job unit := ret tt.
Definition android_boot_panics (adb_check : bool) : M BootControl.Job unit :=
  raise kernel_panic.
Definition android_boot_no_adb (adb_check : bool) : M BootControl.Job unit :=
  raise adb_refused.

(** A board whose relay does not answer. *)
Definition relay_dead : exn := Exn (OtherException "OperationFailed") "relay not reachable".

Definition dead_board : Target.Variant board :=
  Target.MkVariant
    (Some (raise relay_dead))
    (Some (fun _ _ => (Return tt, MkBoard false)))
    None None None None.

(** The view of a table with two exclusive search terms. *)
Definition view0 : LavaTable.view_data string :=
  LavaTable.MkViewData (Some "id") None (Some "submit_time (hours)")
    (Some (LavaTable.IsList ["device"; "owner"])).

(** Cleaned form data, and a parent [clean] that returns it. *)
Definition parent_clean : M (gmap string DashboardAdmin.pyvalue)
                            (gmap string DashboardAdmin.pyvalue) :=
  fun self => (Return self, self).

Definition group_only : gmap string DashboardAdmin.pyvalue :=
  {[ "group" := DashboardAdmin.PyObj 7 ]}.

Definition user_only : gmap string DashboardAdmin.pyvalue :=
  <[ "user" := DashboardAdmin.PyObj 3 ]> {[ "group" := DashboardAdmin.PyNone ]}.

End Scenario.

(* ===================================================================== *)
(** * Properties                                                          *)
(* ===================================================================== *)

(** ** Strings *)

Lemma append_nil_r (s : string) : s +:+ "" = s.
Proof.
  induction s as [|c s IH]; [reflexivity|].
  change (String c (s +:+ "") = String c s). now rewrite IH.
Qed.

Lemma append_assoc (s1 s2 s3 : string) : (s1 +:+ s2) +:+ s3 = s1 +:+ s2 +:+ s3.
Proof.
  induction s1 as [|c s1 IH]; [reflexivity|].
  change (String c ((s1 +:+ s2) +:+ s3) = String c (s1 +:+ s2 +:+ s3)).
  now rewrite IH.
Qed.

(** ** The console transcript sink *)

Section SerialIOFacts.

Import SerialIO.

Lemma join_app (ws1 ws2 : list string) :
  join (ws1 ++ ws2) = join ws1 +:+ join ws2.
Proof.
  induction ws1 as [|w ws1 IH]; simpl; [reflexivity|].
  now rewrite IH, append_assoc.
Qed.

Lemma writes_of_map_Write (ws : list string) : writes_of (map Write ws) = ws.
Proof. induction ws as [|w ws IH]; simpl; [reflexivity | now rewrite IH]. Qed.

Lemma writes_of_filter (cs : list call) :
  writes_of (List.filter is_Write cs) = writes_of cs.
Proof.
  induction cs as [|[text|] cs IH]; simpl; [reflexivity | now rewrite IH | exact IH].
Qed.

(** One write on a sink whose two streams are open. *)
Lemma write_open (text v st pe : string) :
  write text (MkSerialIO (MkStringIO v false) (MkFile st pe false))
  = (Return tt,
     MkSerialIO (MkStringIO (v +:+ text) false) (MkFile st (pe +:+ text) false)).
Proof. reflexivity. Qed.

Lemma flush_open (b : StringIO) (st pe : string) :
  flush (MkSerialIO b (MkFile st pe false))
  = (Return tt, MkSerialIO b (MkFile (st +:+ pe) "" false)).
Proof. reflexivity. Qed.

(** A script on an open sink runs to its end; the buffer gains the data
    of its writes, and so does the log stream. *)
Lemma script_open (cs : list call) :
  forall v st pe,
  exists st' pe',
    script cs (MkSerialIO (MkStringIO v false) (MkFile st pe false))
    = (Return tt,
       MkSerialIO (MkStringIO (v +:+ join (writes_of cs)) false)
                  (MkFile st' pe' false))
    /\ st' +:+ pe' = (st +:+ pe) +:+ join (writes_of cs).
Proof.
  induction cs as [|[text|] cs IH]; intros v st pe.
  - exists st, pe. simpl. now rewrite !append_nil_r.
  - destruct (IH (v +:+ text) st (pe +:+ text)) as (st' & pe' & Hrun & Hlog).
    exists st', pe'. split.
    + cbn [script do_call]. unfold bind at 1. rewrite write_open, Hrun.
      cbn [writes_of join]. now rewrite append_assoc.
    + rewrite Hlog. cbn [writes_of join]. now rewrite !append_assoc.
  - destruct (IH v (st +:+ pe) "") as (st' & pe' & Hrun & Hlog).
    exists st', pe'. split.
    + cbn [script do_call]. unfold bind at 1. rewrite flush_open, Hrun.
      reflexivity.
    + rewrite Hlog. cbn [writes_of]. now rewrite append_nil_r.
Qed.

(** A script on a sink whose buffer is closed: the buffer is never
    touched, and the script raises at its first write. *)
Lemma script_buffer_closed (cs : list call) :
  forall v st pe,
  exists r st' pe',
    script cs (MkSerialIO (MkStringIO v true) (MkFile st pe false))
    = (r, MkSerialIO (MkStringIO v true) (MkFile st' pe' false))
    /\ r = match writes_of cs with [] => Return tt | _ :: _ => Raise closed_file end.
Proof.
  induction cs as [|[text|] cs IH]; intros v st pe.
  - exists (Return tt), st, pe. split; reflexivity.
  - exists (Raise closed_file), st, pe. split; reflexivity.
  - destruct (IH v (st +:+ pe) "") as (r & st' & pe' & Hrun & Hr).
    exists r, st', pe'. split; [|exact Hr].
    cbn [script do_call]. unfold bind at 1. rewrite flush_open. exact Hrun.
Qed.

Lemma getvalue_after (m : M SerialIO unit) (s s' : SerialIO) (r : result unit) :
  m s = (r, s') ->
  (m >> getvalue) s
  = match r with
    | Return _ => getvalue s'
    | Raise e => (Raise e, s')
    end.
Proof. intros H. unfold bind. rewrite H. now destruct r. Qed.

(** What a call does to the buffer depends on the buffer alone. *)
Lemma flush_buffer (s : SerialIO) : serialio (flush s).2 = serialio s.
Proof. destruct s as [b [st pe []]]; reflexivity. Qed.

Lemma write_buffer (text : string) (s : SerialIO) :
  serialio (write text s).2 = (StringIO_write text (serialio s)).2.
Proof. destruct s as [[v []] [st pe []]]; reflexivity. Qed.

Lemma script_guarded_buffer (cs : list call) :
  forall s,
    serialio (script_guarded cs s).2
    = fold_left (fun b text => (StringIO_write text b).2) (writes_of cs) (serialio s).
Proof.
  induction cs as [|[text|] cs IH]; intros s; [reflexivity| |].
  - cbn [script_guarded do_call writes_of fold_left].
    rewrite <- write_buffer, <- IH. reflexivity.
  - cbn [script_guarded do_call writes_of].
    rewrite <- (flush_buffer s), <- IH. reflexivity.
Qed.

End SerialIOFacts.

(** C5.  On a sink that has not been closed, [write(a); write(b)] followed
    by [getvalue()] returns [a + b] (for a new sink exactly that, otherwise
    after what the buffer already held); after any sequence of writes
    [getvalue()] returns the concatenation of the written data in write
    order, and the log stream has received the same data.  Each write
    appends to the in-memory buffer first and to the log stream second:
    with the buffer closed the write raises and the log stream is not
    touched, and with the buffer open the data is in the buffer whatever
    the write to the log stream does. *)
Theorem SerialIO_getvalue_concatenates_writes :
  forall (s : SerialIO.SerialIO) (lf : SerialIO.File) (a b : string) (ws : list string),
    SerialIO.sio_closed (SerialIO.serialio s) = false ->
    SerialIO.f_closed (SerialIO.logfile s) = false ->
    SerialIO.f_closed lf = false ->
    ((SerialIO.write a >> SerialIO.write b >> SerialIO.getvalue)
       (SerialIO.__init__ lf)).1 = Return (a +:+ b)
    /\ ((SerialIO.write a >> SerialIO.write b >> SerialIO.getvalue) s).1
       = Return (SerialIO.sio_value (SerialIO.serialio s) +:+ a +:+ b)
    /\ (exists s',
          SerialIO.script (map SerialIO.Write ws) s = (Return tt, s')
          /\ SerialIO.getvalue s'
             = (Return (SerialIO.sio_value (SerialIO.serialio s) +:+ SerialIO.join ws), s')
          /\ SerialIO.File_contents (SerialIO.logfile s')
             = SerialIO.File_contents (SerialIO.logfile s) +:+ SerialIO.join ws)
    /\ (forall (t : SerialIO.SerialIO) (text : string),
          (SerialIO.sio_closed (SerialIO.serialio t) = true ->
           SerialIO.write text t = (Raise SerialIO.closed_file, t))
          /\ (SerialIO.sio_closed (SerialIO.serialio t) = false ->
              SerialIO.sio_value (SerialIO.serialio (SerialIO.write text t).2)
              = SerialIO.sio_value (SerialIO.serialio t) +:+ text)).
Proof.
  intros [[v c] [st pe cl]] [st0 pe0 cl0] a b ws Hb Hl Hl0.
  simpl in Hb, Hl, Hl0. subst c cl cl0.
  split; [reflexivity|].
  split; [cbn; now rewrite append_assoc|].
  split.
  - destruct (script_open (map SerialIO.Write ws) v st pe) as (st' & pe' & Hrun & Hlog).
    rewrite writes_of_map_Write in Hrun, Hlog.
    eexists. split; [exact Hrun|]. split; [reflexivity|]. exact Hlog.
  - intros [[v' c'] [st' pe' cl']] text. simpl. split; intros ->.
    + reflexivity.
    + now destruct cl'.
Qed.

Lemma SerialIO_getvalue_concatenates_writes_witness :
  ((SerialIO.write "ab" >> SerialIO.write "cd" >> SerialIO.getvalue)
     (SerialIO.__init__ (SerialIO.MkFile "" "" false))).1 = Return "abcd".
Proof.
  exact (proj1 (SerialIO_getvalue_concatenates_writes
                  (SerialIO.__init__ (SerialIO.MkFile "" "" false))
                  (SerialIO.MkFile "" "" false) "ab" "cd" ["ab"; "cd"]
                  eq_refl eq_refl eq_refl)).
Defined.

(** C8.  [flush()] flushes the log stream and nothing else: on an open
    log stream it returns, the data pending in the stream is handed to the
    backing store and nothing stays pending; on a closed one it raises and
    changes nothing; in both cases the in-memory buffer is as it was.  For
    a caller that goes on after a call that raised, any script of writes
    and flushes leaves the buffer the script without its flushes leaves;
    for a straight-line script on a sink whose log stream is open,
    [getvalue()] after it has the outcome it has after the script without
    its flushes, the buffer is the same, and the log stream holds the same
    data. *)
Theorem SerialIO_flush_leaves_buffer :
  forall (s : SerialIO.SerialIO) (cs : list SerialIO.call),
    (SerialIO.f_closed (SerialIO.logfile s) = false ->
     SerialIO.flush s
     = (Return tt,
        SerialIO.MkSerialIO (SerialIO.serialio s)
          (SerialIO.MkFile
             (SerialIO.f_stored (SerialIO.logfile s)
              +:+ SerialIO.f_pending (SerialIO.logfile s))
             "" false)))
    /\ (SerialIO.f_closed (SerialIO.logfile s) = true ->
        SerialIO.flush s = (Raise SerialIO.closed_file, s))
    /\ SerialIO.serialio (SerialIO.flush s).2 = SerialIO.serialio s
    /\ SerialIO.serialio (SerialIO.script_guarded cs s).2
       = SerialIO.serialio
           (SerialIO.script_guarded (List.filter SerialIO.is_Write cs) s).2
    /\ (SerialIO.f_closed (SerialIO.logfile s) = false ->
        ((SerialIO.script cs >> SerialIO.getvalue) s).1
        = ((SerialIO.script (List.filter SerialIO.is_Write cs) >> SerialIO.getvalue) s).1
        /\ SerialIO.serialio ((SerialIO.script cs >> SerialIO.getvalue) s).2
           = SerialIO.serialio
               ((SerialIO.script (List.filter SerialIO.is_Write cs)
                 >> SerialIO.getvalue) s).2
        /\ (SerialIO.sio_closed (SerialIO.serialio s) = false ->
            SerialIO.File_contents
              (SerialIO.logfile ((SerialIO.script cs >> SerialIO.getvalue) s).2)
            = SerialIO.File_contents
                (SerialIO.logfile
                   ((SerialIO.script (List.filter SerialIO.is_Write cs)
                     >> SerialIO.getvalue) s).2))).
Proof.
  intros s cs.
  split; [destruct s as [b [st pe cl]]; simpl; intros ->; reflexivity|].
  split; [destruct s as [b [st pe cl]]; simpl; intros ->; reflexivity|].
  split; [apply flush_buffer|]. split.
  - now rewrite !script_guarded_buffer, writes_of_filter.
  - destruct s as [[v c] [st pe cl]]. simpl. intros ->. destruct c.
    + destruct (script_buffer_closed cs v st pe) as (r1 & st1 & pe1 & H1 & Hr1).
      destruct (script_buffer_closed (List.filter SerialIO.is_Write cs) v st pe)
        as (r2 & st2 & pe2 & H2 & Hr2).
      rewrite writes_of_filter in Hr2.
      rewrite (getvalue_after _ _ _ _ H1), (getvalue_after _ _ _ _ H2).
      subst r1 r2.
      destruct (SerialIO.writes_of cs); split; try reflexivity;
        (split; [reflexivity | discriminate]).
    + destruct (script_open cs v st pe) as (st1 & pe1 & H1 & Hl1).
      destruct (script_open (List.filter SerialIO.is_Write cs) v st pe)
        as (st2 & pe2 & H2 & Hl2).
      rewrite writes_of_filter in H2, Hl2.
      rewrite (getvalue_after _ _ _ _ H1), (getvalue_after _ _ _ _ H2).
      split; [reflexivity|]. split; [reflexivity|].
      intros _. cbn. unfold SerialIO.File_contents. cbn. congruence.
Qed.

Lemma SerialIO_flush_leaves_buffer_witness :
  SerialIO.flush
    (SerialIO.MkSerialIO (SerialIO.MkStringIO "ab" false)
                         (SerialIO.MkFile "a" "b" false))
  = (Return tt,
     SerialIO.MkSerialIO (SerialIO.MkStringIO "ab" false)
                         (SerialIO.MkFile "ab" "" false))
  /\ ((SerialIO.script
         [SerialIO.Write "a"; SerialIO.Flush; SerialIO.Write "b"; SerialIO.Flush]
       >> SerialIO.getvalue) (SerialIO.__init__ (SerialIO.MkFile "" "" false))).1
     = ((SerialIO.script [SerialIO.Write "a"; SerialIO.Write "b"] >> SerialIO.getvalue)
          (SerialIO.__init__ (SerialIO.MkFile "" "" false))).1.
Proof.
  split.
  - exact (proj1 (SerialIO_flush_leaves_buffer
                    (SerialIO.MkSerialIO (SerialIO.MkStringIO "ab" false)
                                         (SerialIO.MkFile "a" "b" false)) [])
                 eq_refl).
  - exact (proj1 (proj2 (proj2 (proj2 (proj2
             (SerialIO_flush_leaves_buffer
                (SerialIO.__init__ (SerialIO.MkFile "" "" false))
                [SerialIO.Write "a"; SerialIO.Flush; SerialIO.Write "b";
                 SerialIO.Flush]))))
             eq_refl)).
Defined.

(** ** The device abstraction *)

(** C6.  A capability the variant does not implement is the method of the
    base class: invoking it raises [NotImplementedError] (the error the
    specification calls NotSupported) and changes nothing on the device. *)
Theorem Target_unsupported_capability_raises :
  forall (D : Type) (v : Target.Variant D) (d : D) (proc : Target.Proc)
         (hwpack rfs boot system userdata image partition directory : string),
    (Target.v_power_on v = None ->
     Target.power_on v d = (Raise (Exn NotImplementedError "power_on"), d))
    /\ (Target.v_power_off v = None ->
        Target.power_off v proc d = (Raise (Exn NotImplementedError "power_off"), d))
    /\ (Target.v_deploy_linaro v = None ->
        Target.deploy_linaro v hwpack rfs d
        = (Raise (Exn NotImplementedError "deploy_image"), d))
    /\ (Target.v_deploy_android v = None ->
        Target.deploy_android v boot system userdata d
        = (Raise (Exn NotImplementedError "deploy_android_image"), d))
    /\ (Target.v_deploy_linaro_prebuilt v = None ->
        Target.deploy_linaro_prebuilt v image d
        = (Raise (Exn NotImplementedError "deploy_linaro_prebuilt"), d))
    /\ (Target.v_file_system v = None ->
        Target.file_system v partition directory d
        = (Raise (Exn NotImplementedError "file_system"), d)).
Proof.
  intros D v d proc hwpack rfs boot system userdata image partition directory.
  unfold Target.power_on, Target.power_off, Target.deploy_linaro,
    Target.deploy_android, Target.deploy_linaro_prebuilt, Target.file_system.
  repeat split; intros ->; reflexivity.
Qed.

Lemma Target_unsupported_capability_raises_witness :
  Target.v_deploy_android Scenario.relay_board = None
  /\ Target.deploy_android Scenario.relay_board "boot.img" "system.img" "data.img"
       (Scenario.MkBoard false)
     = (Raise (Exn NotImplementedError "deploy_android_image"), Scenario.MkBoard false).
Proof.
  split; [reflexivity|].
  exact (proj1 (proj2 (proj2 (proj2
           (Target_unsupported_capability_raises
              Scenario.board Scenario.relay_board (Scenario.MkBoard false)
              Scenario.session "" "" "boot.img" "system.img" "data.img" "" "" ""))))
           eq_refl).
Defined.

Section RunnerFacts.

Import Target.

Context {D : Type}.
Variable self : Variant D.
Variable config : DeviceConfig.
Variable CommandRunner_run : CommandRunner -> string -> Z -> M D Z.

(** When [power_on] raises, the block does not run and nothing else is
    called. *)
Lemma runner_power_on_raises {A} (body : CommandRunner -> M D A) tr d0 e d1 :
  power_on self d0 = (Raise e, d1) ->
  runner self config CommandRunner_run body (MkWorld tr d0)
  = (Raise e, MkWorld (tr ++ [EvPowerOn]) d1).
Proof.
  intros Hon. unfold runner, call_power_on, bind, emit, modify, on_dev, zoom.
  cbn. rewrite Hon. reflexivity.
Qed.

(** When the sync command returns, [power_off] is called once, after the
    one sync, whether the block returned or raised. *)
Lemma runner_sync_returns {A} (body : CommandRunner -> M D A)
      tr d0 proc d1 rb d2 z d3 rp d4 :
  let r := MkCommandRunner proc (tester_str config) in
  power_on self d0 = (Return proc, d1) ->
  body r d1 = (rb, d2) ->
  CommandRunner_run r "sync" 5 d2 = (Return z, d3) ->
  power_off self proc d3 = (rp, d4) ->
  runner self config CommandRunner_run body (MkWorld tr d0)
  = (match rp with Return _ => rb | Raise e => Raise e end,
     MkWorld (tr ++ [EvPowerOn; sync_log; EvRun r "sync" 5; EvPowerOff proc]) d4).
Proof.
  intros r Hon Hbody Hsync Hoff.
  unfold runner, call_power_on, bind, emit, modify, on_dev, zoom.
  cbn. rewrite Hon. fold r.
  unfold try_finally, runner_finally, call_run, call_power_off,
    bind, emit, modify, on_dev, zoom.
  cbn. rewrite Hbody. cbn. rewrite Hsync. cbn. rewrite Hoff.
  rewrite <- !(assoc_L (++)). cbn. now destruct rp.
Qed.

(** When the sync command raises, its exception leaves the [finally:]
    block at once: [power_off] is not reached. *)
Lemma runner_sync_raises {A} (body : CommandRunner -> M D A)
      tr d0 proc d1 rb d2 e d3 :
  let r := MkCommandRunner proc (tester_str config) in
  power_on self d0 = (Return proc, d1) ->
  body r d1 = (rb, d2) ->
  CommandRunner_run r "sync" 5 d2 = (Raise e, d3) ->
  runner self config CommandRunner_run body (MkWorld tr d0)
  = (Raise e, MkWorld (tr ++ [EvPowerOn; sync_log; EvRun r "sync" 5]) d3).
Proof.
  intros r Hon Hbody Hsync.
  unfold runner, call_power_on, bind, emit, modify, on_dev, zoom.
  cbn. rewrite Hon. fold r.
  unfold try_finally, runner_finally, call_run, call_power_off,
    bind, emit, modify, on_dev, zoom.
  cbn. rewrite Hbody. cbn. rewrite Hsync. cbn.
  rewrite <- !(assoc_L (++)). reflexivity.
Qed.

End RunnerFacts.

(** The good case on the concrete board: the block raises, the sync
    answers, and the board is powered off once. *)
Example runner_block_raises_sync_answers :
  let out := Target.runner Scenario.relay_board Scenario.config0
               Scenario.run_answers Scenario.block_raises Scenario.world0 in
  out.1 = Raise Scenario.test_failed
  /\ Target.count Target.is_sync (Target.trace out.2) = 1
  /\ Target.count Target.is_power_off (Target.trace out.2) = 1
  /\ Scenario.powered (Target.dev out.2) = false.
Proof. repeat split. Qed.

(** C1.  The board powers on, the wrapped block returns, and the sync
    command times out: one sync attempt is made, its exception is not
    ignored but leaves [runner], [power_off] is never called and the board
    stays powered. *)
Theorem runner_sync_timeout_skips_power_off :
  let out := Target.runner Scenario.relay_board Scenario.config0
               Scenario.run_times_out Scenario.block_returns Scenario.world0 in
  out.1 = Raise Scenario.pexpect_TIMEOUT
  /\ Target.trace out.2
     = [Target.EvPowerOn;
        Target.EvLogInfo "attempting a filesystem sync before power_off";
        Target.EvRun (Target.MkCommandRunner Scenario.session "root@linaro:") "sync" 5]
  /\ Target.count Target.is_sync (Target.trace out.2) = 1
  /\ Target.count Target.is_power_off (Target.trace out.2) = 0
  /\ Scenario.powered (Target.dev out.2) = true.
Proof. repeat split. Qed.

(** ** The boot actions *)

Section BootFacts.

Import BootControl.

Lemma linaro_prepare_returns options flag j :
  (linaro_prepare options flag j).1 = Return tt.
Proof. now destruct flag. Qed.

Lemma android_prepare_returns options wait j :
  (android_prepare options wait j).1 = Return tt.
Proof. reflexivity. Qed.

(** The action in terms of what the boot call does on the store the
    assignments left. *)
Lemma cmd_boot_linaro_image_run_eq boot options interactive j r j1 :
  boot (linaro_prepare (default [] options) (default false interactive) j).2
  = (r, j1) ->
  cmd_boot_linaro_image_run boot options interactive j
  = match r with
    | Return _ =>
        (Return tt,
         MkJob (device_config j1) (target_device j1)
               (test_data j1 ++ [("boot_image", "pass")]) (logging j1))
    | Raise _ =>
        (Raise failed_to_boot,
         MkJob (device_config j1) (target_device j1)
               (test_data j1 ++ [("boot_image", "fail")])
               (logging j1 ++ [LogException "boot_linaro_image failed"]))
    end.
Proof.
  intros Hboot.
  unfold cmd_boot_linaro_image_run, linaro_body, bind, on_job, zoom.
  cbn [job status].
  destruct (linaro_prepare (default [] options) (default false interactive) j)
    as [r0 j0] eqn:Hprep.
  pose proof (linaro_prepare_returns (default [] options)
                (default false interactive) j) as Hr0.
  rewrite Hprep in Hr0. cbn in Hr0, Hboot. subst r0.
  unfold try_finally, try_except, set_status, modify, get, bind, zoom.
  cbn. rewrite Hboot. destruct r as [[]|e]; reflexivity.
Qed.

Lemma cmd_boot_linaro_android_image_run_eq boot options adb_check wait j r j1 :
  boot (default false adb_check) (android_prepare options wait j).2 = (r, j1) ->
  cmd_boot_linaro_android_image_run boot options adb_check wait j
  = match r with
    | Return _ => (Return tt, j1)
    | Raise e => android_handler e j1
    end.
Proof.
  intros Hboot.
  unfold cmd_boot_linaro_android_image_run, bind, try_except.
  destruct (android_prepare options wait j) as [r0 j0] eqn:Hprep.
  pose proof (android_prepare_returns options wait j) as Hr0.
  rewrite Hprep in Hr0. cbn in Hr0, Hboot. subst r0.
  rewrite Hboot. now destruct r as [[]|e].
Qed.

End BootFacts.

(** C2.  [cmd_boot_linaro_image.run]: when the boot call returns, the one
    record ("boot_image", "pass") is appended to TestData and the action
    returns; when the boot call raises anything at all, the one record
    ("boot_image", "fail") is appended and the store that carries it is the
    one with which [CriticalError] leaves the action. *)
Theorem cmd_boot_linaro_image_records_outcome :
  forall (boot : M BootControl.Job unit) (options : option (list string))
         (interactive_boot_cmds : option bool) (j j1 : BootControl.Job)
         (r : result unit),
    boot (BootControl.linaro_prepare (default [] options)
            (default false interactive_boot_cmds) j).2 = (r, j1) ->
    let out := BootControl.cmd_boot_linaro_image_run boot options
                 interactive_boot_cmds j in
    match r with
    | Return _ =>
        out.1 = Return tt
        /\ BootControl.test_data out.2
           = BootControl.test_data j1 ++ [("boot_image", "pass")]
    | Raise _ =>
        out.1 = Raise (Exn CriticalError "Failed to boot test image.")
        /\ BootControl.test_data out.2
           = BootControl.test_data j1 ++ [("boot_image", "fail")]
    end.
Proof.
  intros boot options flag j j1 r Hboot out. subst out.
  rewrite (cmd_boot_linaro_image_run_eq _ _ _ _ _ _ Hboot).
  destruct r; split; reflexivity.
Qed.

Lemma cmd_boot_linaro_image_records_outcome_witness :
  (BootControl.cmd_boot_linaro_image_run Scenario.boot_panics
     (Some ["console=ttyS0"]) (Some false) Scenario.job0).1
  = Raise (Exn CriticalError "Failed to boot test image.")
  /\ BootControl.test_data
       (BootControl.cmd_boot_linaro_image_run Scenario.boot_panics
          (Some ["console=ttyS0"]) (Some false) Scenario.job0).2
     = [("boot_image", "fail")].
Proof.
  exact (cmd_boot_linaro_image_records_outcome Scenario.boot_panics
           (Some ["console=ttyS0"]) (Some false) Scenario.job0 _
           (Raise Scenario.kernel_panic) eq_refl).
Defined.

(** C7.  [cmd_boot_linaro_image.run]: with [interactive_boot_cmds] true the
    options become [config.boot_cmds] and the Target's [boot_options] stay
    as they were; otherwise the options become the Target's [boot_options]
    and [config.boot_cmds] stays.  The boot call runs on the store so
    assigned, and the action assigns neither attribute afterwards. *)
Theorem cmd_boot_linaro_image_assigns_before_boot :
  forall (boot : M BootControl.Job unit) (options : option (list string))
         (interactive_boot_cmds : option bool) (j j1 : BootControl.Job)
         (r : result unit),
    let opts := default [] options in
    let flag := default false interactive_boot_cmds in
    let j0 := (BootControl.linaro_prepare opts flag j).2 in
    boot j0 = (r, j1) ->
    let out := BootControl.cmd_boot_linaro_image_run boot options
                 interactive_boot_cmds j in
    (if flag then
       boot_cmds (BootControl.client_config j0) = opts
       /\ Target.boot_options (BootControl.target_device j0)
          = Target.boot_options (BootControl.target_device j)
     else
       Target.boot_options (BootControl.target_device j0) = opts
       /\ boot_cmds (BootControl.client_config j0)
          = boot_cmds (BootControl.client_config j))
    /\ BootControl.device_config out.2 = BootControl.device_config j1
    /\ BootControl.target_device out.2 = BootControl.target_device j1.
Proof.
  intros boot options iflag j j1 r opts flag j0 Hboot out. subst out.
  rewrite (cmd_boot_linaro_image_run_eq _ _ _ _ _ _ Hboot).
  split.
  - subst j0. destruct flag; split; reflexivity.
  - destruct r; split; reflexivity.
Qed.

Lemma cmd_boot_linaro_image_assigns_before_boot_witness :
  boot_cmds (BootControl.client_config
               (BootControl.linaro_prepare ["boot"] true Scenario.job0).2)
  = ["boot"]
  /\ Target.boot_options
       (BootControl.target_device
          (BootControl.linaro_prepare ["boot"] true Scenario.job0).2)
     = [].
Proof.
  exact (proj1 (cmd_boot_linaro_image_assigns_before_boot Scenario.boot_succeeds
                  (Some ["boot"]) (Some true) Scenario.job0 _ (Return tt) eq_refl)).
Defined.

(** C3.  [cmd_boot_linaro_android_image.run]: an [ADBConnectError] raised
    by the boot call leaves the action as the same exception, and the store
    with which it leaves already holds the log record about it. *)
Theorem cmd_boot_linaro_android_image_reraises_adb_error :
  forall (boot : bool -> M BootControl.Job unit) (options : option (list string))
         (adb_check wait_for_home_screen : option bool)
         (j j1 : BootControl.Job) (e : exn),
    boot (default false adb_check)
         (BootControl.android_prepare options wait_for_home_screen j).2
    = (Raise e, j1) ->
    is_ADBConnectError e = true ->
    BootControl.cmd_boot_linaro_android_image_run boot options adb_check
      wait_for_home_screen j
    = (Raise e,
       BootControl.MkJob (BootControl.device_config j1) (BootControl.target_device j1)
         (BootControl.test_data j1)
         (BootControl.logging j1 ++
          [BootControl.LogException
             ("boot_linaro_android_image failed to create the adb connection: "
              +:+ exn_msg e)])).
Proof.
  intros boot options adb wait j j1 e Hboot Hadb.
  rewrite (cmd_boot_linaro_android_image_run_eq _ _ _ _ _ _ _ Hboot).
  unfold BootControl.android_handler. rewrite Hadb. reflexivity.
Qed.

Lemma cmd_boot_linaro_android_image_reraises_adb_error_witness :
  (BootControl.cmd_boot_linaro_android_image_run Scenario.android_boot_no_adb
     (Some ["-s"]) (Some true) None Scenario.job0).1
  = Raise Scenario.adb_refused.
Proof.
  exact (f_equal fst
           (cmd_boot_linaro_android_image_reraises_adb_error
              Scenario.android_boot_no_adb (Some ["-s"]) (Some true) None
              Scenario.job0 _ Scenario.adb_refused eq_refl eq_refl)).
Defined.

(** C4, as the specification states it, fails: the [CriticalError] that
    replaces a generic boot failure has a fixed message, in which the
    message of the original exception does not occur. *)
Lemma cmd_boot_linaro_android_image_drops_original_message :
  ~ (forall (boot : bool -> M BootControl.Job unit) (options : option (list string))
            (adb_check wait_for_home_screen : option bool)
            (j j1 : BootControl.Job) (e : exn),
        boot (default false adb_check)
             (BootControl.android_prepare options wait_for_home_screen j).2
        = (Raise e, j1) ->
        is_ADBConnectError e = false ->
        exists e',
          (BootControl.cmd_boot_linaro_android_image_run boot options adb_check
             wait_for_home_screen j).1 = Raise e'
          /\ exn_cls e' = CriticalError
          /\ contains (exn_msg e) (exn_msg e') = true).
Proof.
  intros H.
  destruct (H Scenario.android_boot_panics None None None Scenario.job0 _
              Scenario.kernel_panic eq_refl eq_refl) as (e' & He & _ & Hc).
  cbn in He. injection He as <-. vm_compute in Hc. discriminate Hc.
Qed.

(** C4, amended.  An exception other than [ADBConnectError] that derives
    from [Exception] is logged with its message and replaced by
    [CriticalError("Failed to boot test image.")]; the original message is
    in the log record only.  An exception outside [Exception] leaves the
    action as it is. *)
Theorem cmd_boot_linaro_android_image_wraps_other_errors :
  forall (boot : bool -> M BootControl.Job unit) (options : option (list string))
         (adb_check wait_for_home_screen : option bool)
         (j j1 : BootControl.Job) (e : exn),
    boot (default false adb_check)
         (BootControl.android_prepare options wait_for_home_screen j).2
    = (Raise e, j1) ->
    is_ADBConnectError e = false ->
    BootControl.cmd_boot_linaro_android_image_run boot options adb_check
      wait_for_home_screen j
    = if is_Exception e then
        (Raise (Exn CriticalError "Failed to boot test image."),
         BootControl.MkJob (BootControl.device_config j1)
           (BootControl.target_device j1) (BootControl.test_data j1)
           (BootControl.logging j1 ++
            [BootControl.LogException
               ("boot_linaro_android_image failed: " +:+ exn_msg e)]))
      else (Raise e, j1).
Proof.
  intros boot options adb wait j j1 e Hboot Hadb.
  rewrite (cmd_boot_linaro_android_image_run_eq _ _ _ _ _ _ _ Hboot).
  unfold BootControl.android_handler. rewrite Hadb.
  now destruct (is_Exception e).
Qed.

Lemma cmd_boot_linaro_android_image_wraps_other_errors_witness :
  (BootControl.cmd_boot_linaro_android_image_run Scenario.android_boot_panics
     (Some ["-s"]) (Some true) None Scenario.job0).1
  = Raise (Exn CriticalError "Failed to boot test image.").
Proof.
  exact (f_equal fst
           (cmd_boot_linaro_android_image_wraps_other_errors
              Scenario.android_boot_panics (Some ["-s"]) (Some true) None
              Scenario.job0 _ Scenario.kernel_panic eq_refl eq_refl)).
Defined.

(** ** The schema dictionary *)

Section SchemaFacts.

Import Schema.

(** The one dictionary, once the module is loaded. *)
Lemma boot_schema_loaded :
  deref import_boot_control (_boot_schema import_boot_control)
  = Some (MkSchema "object"
            (<["interactive_boot_cmds" := flag_literal]>
               (<["wait_for_home_screen" := flag_literal]>
                  (<["adb_check" := flag_literal]>
                     (properties boot_schema_literal))))
            false).
Proof.
  unfold deref, import_boot_control, alloc, set_property, empty_heap. cbn.
  rewrite !lookup_alter_eq, lookup_insert_eq. reflexivity.
Qed.

End SchemaFacts.

(** C9.  The two boot actions hold the same dictionary object as
    [parameters_schema]; once the module is loaded it declares [options],
    [adb_check], [wait_for_home_screen] and [interactive_boot_cmds] for
    both, with [additionalProperties] false.  Validation against it accepts
    for each action the fields only the other class body adds, while a
    field neither adds is still rejected. *)
Theorem boot_actions_share_one_schema :
  let m := Schema.import_boot_control in
  Schema.cmd_boot_linaro_android_image_parameters_schema m
  = Schema.cmd_boot_linaro_image_parameters_schema m
  /\ (exists d,
        Schema.deref m (Schema.cmd_boot_linaro_android_image_parameters_schema m) = Some d
        /\ Schema.deref m (Schema.cmd_boot_linaro_image_parameters_schema m) = Some d
        /\ dom (Schema.properties d)
           = {[ "options"; "adb_check"; "wait_for_home_screen";
                "interactive_boot_cmds" ]}
        /\ Schema.additionalProperties d = false)
  /\ Schema.validate_parameters m
       (Schema.cmd_boot_linaro_android_image_parameters_schema m)
       {[ "interactive_boot_cmds" := Schema.JBool true ]} = true
  /\ Schema.validate_parameters m
       (Schema.cmd_boot_linaro_image_parameters_schema m)
       (<[ "adb_check" := Schema.JBool true ]>
          {[ "wait_for_home_screen" := Schema.JBool true ]}) = true
  /\ Schema.validate_parameters m
       (Schema.cmd_boot_linaro_image_parameters_schema m)
       {[ "tries" := Schema.JNum 3 ]} = false.
Proof.
  cbv zeta. split; [reflexivity|]. split.
  - eexists. split; [exact boot_schema_loaded|].
    split; [exact boot_schema_loaded|].
    split; [|reflexivity].
    cbn [Schema.properties Schema.boot_schema_literal].
    rewrite !dom_insert_L, dom_singleton_L. set_solver.
  - repeat split; vm_compute; reflexivity.
Qed.

(** C10.  [cmd_boot_linaro_android_image.run] without
    [wait_for_home_screen]: the store the boot call runs on has
    [config.android_wait_for_home_screen] true, and the action does not
    assign the configuration afterwards; the schema the class is validated
    against declares the default of that parameter as false. *)
Theorem cmd_boot_linaro_android_image_wait_default :
  forall (boot : bool -> M BootControl.Job unit) (options : option (list string))
         (adb_check : option bool) (j j1 : BootControl.Job) (r : result unit),
    let j0 := (BootControl.android_prepare options None j).2 in
    boot (default false adb_check) j0 = (r, j1) ->
    let out := BootControl.cmd_boot_linaro_android_image_run boot options
                 adb_check None j in
    android_wait_for_home_screen (BootControl.target_config j0) = true
    /\ BootControl.device_config out.2 = BootControl.device_config j1
    /\ (exists d,
          Schema.deref Schema.import_boot_control
            (Schema.cmd_boot_linaro_android_image_parameters_schema
               Schema.import_boot_control) = Some d
          /\ Schema.p_default <$> Schema.properties d !! "wait_for_home_screen"
             = Some (Some (Schema.JBool false))).
Proof.
  intros boot options adb j j1 r j0 Hboot out. subst out.
  split; [reflexivity|]. split.
  - rewrite (cmd_boot_linaro_android_image_run_eq _ _ _ _ _ _ _ Hboot).
    destruct r as [[]|e]; [reflexivity|].
    unfold BootControl.android_handler.
    destruct (is_ADBConnectError e); [reflexivity|].
    now destruct (is_Exception e).
  - eexists. split; [exact boot_schema_loaded|].
    cbn [Schema.properties].
    rewrite lookup_insert_ne by done. rewrite lookup_insert_eq. reflexivity.
Qed.

Lemma cmd_boot_linaro_android_image_wait_default_witness :
  android_wait_for_home_screen
    (BootControl.target_config
       (BootControl.android_prepare (Some ["-s"]) None Scenario.job0).2) = true.
Proof.
  exact (proj1 (cmd_boot_linaro_android_image_wait_default
                  Scenario.android_boot_succeeds (Some ["-s"]) (Some true)
                  Scenario.job0 _ (Return tt) eq_refl)).
Defined.

(* ===================================================================== *)
(** * Further properties                                                  *)
(* ===================================================================== *)

(** ** [Target.runner] *)

Lemma runner_power_on_raises_witness :
  Target.runner Scenario.dead_board Scenario.config0 Scenario.run_answers
    Scenario.block_returns Scenario.world0
  = (Raise Scenario.relay_dead,
     Target.MkWorld [Target.EvPowerOn] (Scenario.MkBoard false)).
Proof.
  exact (runner_power_on_raises Scenario.dead_board Scenario.config0
           Scenario.run_answers Scenario.block_returns []
           (Scenario.MkBoard false) Scenario.relay_dead (Scenario.MkBoard false)
           eq_refl).
Defined.

Lemma runner_sync_returns_witness :
  Target.runner Scenario.relay_board Scenario.config0 Scenario.run_answers
    Scenario.block_raises Scenario.world0
  = (Raise Scenario.test_failed,
     Target.MkWorld
       [Target.EvPowerOn; Target.sync_log;
        Target.EvRun (Target.MkCommandRunner Scenario.session "root@linaro:") "sync" 5;
        Target.EvPowerOff Scenario.session]
       (Scenario.MkBoard false)).
Proof.
  exact (runner_sync_returns Scenario.relay_board Scenario.config0
           Scenario.run_answers Scenario.block_raises []
           (Scenario.MkBoard false) Scenario.session (Scenario.MkBoard true)
           (Raise Scenario.test_failed) (Scenario.MkBoard true) 0%Z
           (Scenario.MkBoard true) (Return tt) (Scenario.MkBoard false)
           eq_refl eq_refl eq_refl eq_refl).
Defined.

(** On a variant that has no [power_on] of its own, [runner] raises the
    base class's [NotImplementedError]: the block is not run, and neither
    a sync nor [power_off] is attempted. *)
Theorem runner_without_power_on :
  forall (D A : Type) (self : Target.Variant D) (config : DeviceConfig)
         (CommandRunner_run : Target.CommandRunner -> string -> Z -> M D Z)
         (body : Target.CommandRunner -> M D A) (tr : list Target.event) (d : D),
    Target.v_power_on self = None ->
    Target.runner self config CommandRunner_run body (Target.MkWorld tr d)
    = (Raise (Exn NotImplementedError "power_on"),
       Target.MkWorld (tr ++ [Target.EvPowerOn]) d).
Proof.
  intros D A self config run body tr d Hnone.
  unfold Target.runner, Target.call_power_on, Target.power_on, bind,
    Target.emit, modify, Target.on_dev, zoom.
  rewrite Hnone. reflexivity.
Qed.

Lemma runner_without_power_on_witness :
  Target.runner Target.base Scenario.config0 Scenario.run_answers
    Scenario.block_returns Scenario.world0
  = (Raise (Exn NotImplementedError "power_on"),
     Target.MkWorld [Target.EvPowerOn] (Scenario.MkBoard false)).
Proof.
  exact (runner_without_power_on Scenario.board unit Target.base Scenario.config0
           Scenario.run_answers Scenario.block_returns []
           (Scenario.MkBoard false) eq_refl).
Defined.

(** ** [SerialIO.close] and the two sinks *)

Lemma script_app (cs1 cs2 : list SerialIO.call) :
  forall s,
    SerialIO.script (cs1 ++ cs2) s
    = match SerialIO.script cs1 s with
      | (Return _, s1) => SerialIO.script cs2 s1
      | (Raise e, s1) => (Raise e, s1)
      end.
Proof.
  induction cs1 as [|c cs1 IH]; intros s; [reflexivity|].
  cbn [app SerialIO.script]. unfold bind.
  destruct (SerialIO.do_call c s) as [[[]|e] s1]; [apply IH | reflexivity].
Qed.

(** [close()] always returns and closes both streams; data pending in the
    log stream is handed to the backing store, so nothing written is lost.
    Afterwards [write], [flush] and [getvalue] raise [ValueError] and leave
    the sink as it is (the transcript can no longer be read), and a second
    [close()] returns without any effect. *)
Theorem SerialIO_close_is_final :
  forall (s : SerialIO.SerialIO) (text : string),
    let s' := (SerialIO.close s).2 in
    (SerialIO.close s).1 = Return tt
    /\ SerialIO.sio_closed (SerialIO.serialio s') = true
    /\ SerialIO.f_closed (SerialIO.logfile s') = true
    /\ SerialIO.File_contents (SerialIO.logfile s')
       = SerialIO.File_contents (SerialIO.logfile s)
    /\ SerialIO.write text s' = (Raise SerialIO.closed_file, s')
    /\ SerialIO.flush s' = (Raise SerialIO.closed_file, s')
    /\ SerialIO.getvalue s' = (Raise SerialIO.closed_file, s')
    /\ SerialIO.close s' = (Return tt, s').
Proof.
  intros [[v c] [st pe []]] text; cbn; repeat split.
  unfold SerialIO.File_contents. cbn. apply append_nil_r.
Qed.

(** A sink created on an open log stream keeps its two sinks in step: a
    script of writes and flushes runs to its end, the buffer holds the
    written data in order, and the log stream holds what it held before
    followed by exactly the buffer.  After a final flush nothing is
    pending: all of it is in the backing store. *)
Theorem SerialIO_sinks_agree :
  forall (lf : SerialIO.File) (cs : list SerialIO.call),
    SerialIO.f_closed lf = false ->
    let out := SerialIO.script cs (SerialIO.__init__ lf) in
    let flushed := (SerialIO.script (cs ++ [SerialIO.Flush]) (SerialIO.__init__ lf)).2 in
    out.1 = Return tt
    /\ SerialIO.sio_value (SerialIO.serialio out.2) = SerialIO.join (SerialIO.writes_of cs)
    /\ SerialIO.File_contents (SerialIO.logfile out.2)
       = SerialIO.File_contents lf +:+ SerialIO.sio_value (SerialIO.serialio out.2)
    /\ SerialIO.f_pending (SerialIO.logfile flushed) = ""
    /\ SerialIO.f_stored (SerialIO.logfile flushed)
       = SerialIO.File_contents lf +:+ SerialIO.join (SerialIO.writes_of cs).
Proof.
  intros [st pe cl] cs Hopen. simpl in Hopen. subst cl. cbv zeta.
  rewrite script_app.
  unfold SerialIO.__init__, SerialIO.StringIO_new.
  destruct (script_open cs "" st pe) as (st' & pe' & Hrun & Hlog).
  rewrite Hrun. cbn. unfold SerialIO.File_contents. cbn.
  repeat split; exact Hlog.
Qed.

Lemma SerialIO_sinks_agree_witness :
  SerialIO.f_stored
    (SerialIO.logfile
       (SerialIO.script ([SerialIO.Write "a"; SerialIO.Write "b"] ++ [SerialIO.Flush])
          (SerialIO.__init__ (SerialIO.MkFile "boot: " "" false))).2)
  = "boot: ab".
Proof.
  exact (proj2 (proj2 (proj2 (proj2
           (SerialIO_sinks_agree (SerialIO.MkFile "boot: " "" false)
              [SerialIO.Write "a"; SerialIO.Write "b"] eq_refl))))).
Defined.

(** ** The boot actions: what they leave alone, and how calls compose *)

(** [cmd_boot_linaro_android_image.run] never records a result in
    TestData and assigns nothing after the boot call.  When the boot call
    returns, the action leaves the store exactly as the boot call left it;
    when it raises, the only change is at most one log record. *)
Theorem cmd_boot_linaro_android_image_only_logs :
  forall (boot : bool -> M BootControl.Job unit) (options : option (list string))
         (adb_check wait_for_home_screen : option bool)
         (j j1 : BootControl.Job) (r : result unit),
    boot (default false adb_check)
         (BootControl.android_prepare options wait_for_home_screen j).2
    = (r, j1) ->
    let out := BootControl.cmd_boot_linaro_android_image_run boot options
                 adb_check wait_for_home_screen j in
    BootControl.test_data out.2 = BootControl.test_data j1
    /\ BootControl.target_device out.2 = BootControl.target_device j1
    /\ BootControl.device_config out.2 = BootControl.device_config j1
    /\ (r = Return tt -> out = (Return tt, j1))
    /\ (exists recs,
          BootControl.logging out.2 = BootControl.logging j1 ++ recs
          /\ length recs <= 1).
Proof.
  intros boot options adb wait j j1 r Hboot out. subst out.
  rewrite (cmd_boot_linaro_android_image_run_eq _ _ _ _ _ _ _ Hboot).
  destruct r as [[]|e].
  - repeat split. exists []. split; [now rewrite app_nil_r | cbn; lia].
  - unfold BootControl.android_handler.
    destruct (is_ADBConnectError e); [|destruct (is_Exception e)];
      cbn; repeat split; try discriminate;
      try (eexists; split; [reflexivity | cbn; lia]).
    exists []. split; [now rewrite app_nil_r | cbn; lia].
Qed.

Lemma cmd_boot_linaro_android_image_only_logs_witness :
  BootControl.test_data
    (BootControl.cmd_boot_linaro_android_image_run Scenario.android_boot_panics
       (Some ["-s"]) (Some true) None Scenario.job0).2
  = [].
Proof.
  exact (proj1 (cmd_boot_linaro_android_image_only_logs
                  Scenario.android_boot_panics (Some ["-s"]) (Some true) None
                  Scenario.job0 _ (Raise Scenario.kernel_panic) eq_refl)).
Defined.

(** The assignments of the Android boot action replace what an earlier
    call assigned: only the last call counts.  Omitted options and an
    empty list are the same call, and either one clears the Target's
    [boot_options]; [config.boot_cmds] is never touched. *)
Theorem android_prepare_last_call_wins :
  forall (o1 o2 : option (list string)) (w1 w2 : option bool) (j : BootControl.Job),
    (BootControl.android_prepare o2 w2 (BootControl.android_prepare o1 w1 j).2).2
    = (BootControl.android_prepare o2 w2 j).2
    /\ BootControl.android_prepare None w2 j
       = BootControl.android_prepare (Some []) w2 j
    /\ Target.boot_options
         (BootControl.target_device (BootControl.android_prepare o2 w2 j).2)
       = default [] o2
    /\ boot_cmds (BootControl.device_config (BootControl.android_prepare o2 w2 j).2)
       = boot_cmds (BootControl.device_config j).
Proof.
  intros o1 o2 w1 w2 [c t td lg].
  repeat split; destruct o2 as [[|x xs]|]; reflexivity.
Qed.

(** The two branches of the assignment in [cmd_boot_linaro_image.run] are
    independent: boot commands assigned by an interactive call stay in the
    configuration through a later non-interactive call (and the other way
    round for the boot options), in either order; with the same flag the
    later call replaces the earlier one. *)
Theorem linaro_prepare_composes :
  forall (o1 o2 : list string) (flag : bool) (j : BootControl.Job),
    let j12 := (BootControl.linaro_prepare o2 false
                  (BootControl.linaro_prepare o1 true j).2).2 in
    let j21 := (BootControl.linaro_prepare o1 true
                  (BootControl.linaro_prepare o2 false j).2).2 in
    j12 = j21
    /\ boot_cmds (BootControl.device_config j12) = o1
    /\ Target.boot_options (BootControl.target_device j12) = o2
    /\ (BootControl.linaro_prepare o2 flag (BootControl.linaro_prepare o1 flag j).2).2
       = (BootControl.linaro_prepare o2 flag j).2.
Proof.
  intros o1 o2 flag [c t td lg]. repeat split. now destruct flag.
Qed.

(** ** [BundleStreamAdminForm.clean] *)

(** The form is rejected when a group is set and the user is anything but
    an explicit [None]: a user that is set, and also a [user] key that is
    missing from the cleaned data, because the lookup then gives the empty
    string.  The parent's [clean] is not called and the form is left as it
    is. *)
Theorem BundleStreamAdminForm_clean_rejects :
  forall (F : Type) (cleaned_data_of : F -> gmap string DashboardAdmin.pyvalue)
         (super_clean : M F (gmap string DashboardAdmin.pyvalue))
         (self : F) (g : DashboardAdmin.pyvalue),
    cleaned_data_of self !! "user" <> Some DashboardAdmin.PyNone ->
    cleaned_data_of self !! "group" = Some g ->
    g <> DashboardAdmin.PyNone ->
    DashboardAdmin.clean cleaned_data_of super_clean self
    = (Raise DashboardAdmin.both_set, self).
Proof.
  intros F cd sc self g Huser Hgroup Hg.
  unfold DashboardAdmin.clean, DashboardAdmin.dict_get. rewrite Hgroup.
  destruct (cd self !! "user") as [[| |]|]; destruct g; cbn;
    try reflexivity; congruence.
Qed.

Lemma BundleStreamAdminForm_clean_rejects_witness :
  DashboardAdmin.clean (fun d => d) Scenario.parent_clean Scenario.group_only
  = (Raise DashboardAdmin.both_set, Scenario.group_only).
Proof.
  apply (BundleStreamAdminForm_clean_rejects _ (fun d => d) Scenario.parent_clean
           Scenario.group_only (DashboardAdmin.PyObj 7)).
  - vm_compute. discriminate.
  - vm_compute. reflexivity.
  - discriminate.
Defined.

(** In every other case the form goes to the parent's [clean] unchanged:
    when the user is an explicit [None], or when the group is [None] or
    missing. *)
Theorem BundleStreamAdminForm_clean_accepts :
  forall (F : Type) (cleaned_data_of : F -> gmap string DashboardAdmin.pyvalue)
         (super_clean : M F (gmap string DashboardAdmin.pyvalue)) (self : F),
    cleaned_data_of self !! "user" = Some DashboardAdmin.PyNone
    \/ cleaned_data_of self !! "group" = None
    \/ cleaned_data_of self !! "group" = Some DashboardAdmin.PyNone ->
    DashboardAdmin.clean cleaned_data_of super_clean self = super_clean self.
Proof.
  intros F cd sc self H.
  unfold DashboardAdmin.clean, DashboardAdmin.dict_get.
  destruct H as [-> | [-> | ->]]; cbn; [reflexivity | |];
    now rewrite andb_false_r.
Qed.

Lemma BundleStreamAdminForm_clean_accepts_witness :
  DashboardAdmin.clean (fun d => d) Scenario.parent_clean Scenario.user_only
  = (Return Scenario.user_only, Scenario.user_only).
Proof.
  apply (BundleStreamAdminForm_clean_accepts _ (fun d => d) Scenario.parent_clean
           Scenario.user_only).
  right. right. vm_compute. reflexivity.
Defined.

(** ** [LavaTable.prepare_*_data] *)

(** [prepare_discrete_data] exposes the exclusive terms only when
    [data.discrete] is a list of at least two: the result maps a key to a
    list exactly when that list is [data.discrete], it has two or more
    items, and the key is the table's prefix, or "discrete" when the
    prefix is [None] or empty. *)
Theorem prepare_discrete_data_lookup :
  forall (V : Type) (prefix : option string) (data : LavaTable.view_data V)
         (k : string) (l : list V),
    LavaTable.prepare_discrete_data prefix data !! k = Some l
    <-> LavaTable.discrete data = Some (LavaTable.IsList l)
        /\ 2 <= length l
        /\ k = (if LavaTable.prefix_true prefix then default "" prefix
                else "discrete").
Proof.
  intros V prefix data k l. unfold LavaTable.prepare_discrete_data.
  destruct (LavaTable.discrete data) as [[items|v]|].
  - destruct (Nat.ltb_spec 1 (length items)) as [Hlen|Hlen].
    + destruct (LavaTable.prefix_true prefix);
        rewrite lookup_singleton_Some; split.
      * intros [<- <-]. repeat split; [lia].
      * intros (Heq & _ & ->). split; congruence.
      * intros [<- <-]. repeat split; [lia].
      * intros (Heq & _ & ->). split; congruence.
    + assert (Hempty : (∅ : gmap string (list V)) !! k = Some l
                       <-> Some (LavaTable.IsList items) = Some (LavaTable.IsList l)
                           /\ 2 <= length l
                           /\ k = (if LavaTable.prefix_true prefix
                                   then default "" prefix else "discrete")).
      { rewrite lookup_empty. split; [discriminate|].
        intros (Heq & Hl & _). injection Heq as ->. lia. }
      destruct (LavaTable.prefix_true prefix); exact Hempty.
  - rewrite lookup_empty. split; [discriminate | intros (Heq & _); discriminate].
  - rewrite lookup_empty. split; [discriminate | intros (Heq & _); discriminate].
Qed.

Lemma singleton_or_empty_lookup {V : Type} (attr : option V) (b : bool)
      (p name k : string) (v : V) :
  (match attr with
   | None => ∅
   | Some x => if b then {[ p := x ]} else {[ name := x ]}
   end : gmap string V) !! k = Some v
  <-> attr = Some v /\ k = (if b then p else name).
Proof.
  destruct attr as [x|].
  - destruct b; rewrite lookup_singleton_Some; split.
    + intros [<- <-]. now split.
    + intros [Heq ->]. split; congruence.
    + intros [<- <-]. now split.
    + intros [Heq ->]. split; congruence.
  - rewrite lookup_empty. split; [discriminate | intros [Heq _]; discriminate].
Qed.

(** [prepare_search_data], [prepare_terms_data] and [prepare_times_data]
    give back the attribute of the view under one key, the table's prefix
    when it has one and the fixed name otherwise, and nothing when the
    view lacks the attribute; an empty prefix counts as no prefix. *)
Theorem prepare_data_lookup :
  forall (V : Type) (prefix : option string) (data : LavaTable.view_data V)
         (k : string) (v : V),
    (LavaTable.prepare_search_data prefix data !! k = Some v
     <-> LavaTable.search data = Some v
         /\ k = (if LavaTable.prefix_true prefix then default "" prefix
                 else "search"))
    /\ (LavaTable.prepare_terms_data prefix data !! k = Some v
        <-> LavaTable.terms data = Some v
            /\ k = (if LavaTable.prefix_true prefix then default "" prefix
                    else "terms"))
    /\ (LavaTable.prepare_times_data prefix data !! k = Some v
        <-> LavaTable.times data = Some v
            /\ k = (if LavaTable.prefix_true prefix then default "" prefix
                    else "times"))
    /\ LavaTable.prepare_search_data (Some "") data
       = LavaTable.prepare_search_data None data.
Proof.
  intros V prefix data k v.
  unfold LavaTable.prepare_search_data, LavaTable.prepare_terms_data,
    LavaTable.prepare_times_data.
  split; [apply singleton_or_empty_lookup|].
  split; [apply singleton_or_empty_lookup|].
  split; [apply singleton_or_empty_lookup|].
  reflexivity.
Qed.
